(** * Events CRUD handler (src/backend/events/index.py)

    A shallow embedding of the serverless handler of the events API:
    the JSON values it exchanges (with the parts of Python's [json]
    module it calls), the PostgreSQL table it talks to through psycopg2,
    and the handler with its four operations [get_events],
    [create_event], [update_event] and [delete_event]. *)

From Stdlib Require Import String Ascii ZArith List Bool Lia.
From Stdlib Require Import Sorting.Permutation Sorting.Sorted.
From Stdlib Require DecimalPos.
Import ListNotations.
Open Scope string_scope.
Set Warnings "-register-all".

(** ** Python values that cross the handler's boundary *)

(** Results of Python code: a value, or an exception carrying the text
    that [str(e)] would produce. *)
Inductive result (A : Type) : Type :=
| Ok (a : A)
| Err (msg : string).
Arguments Ok {A} a.
Arguments Err {A} msg.

(** The values [json.loads] produces and [json.dumps] consumes
    (dict, list, str, int, bool, None). *)
Inductive json : Type :=
| JNull
| JBool (b : bool)
| JNum (n : Z)
| JStr (s : string)
| JArr (l : list json)
| JObj (l : list (string * json)).

(** ** Decimal and hexadecimal rendering *)

Fixpoint string_of_uint (d : Decimal.uint) : string :=
  match d with
  | Decimal.Nil => EmptyString
  | Decimal.D0 d => String "0" (string_of_uint d)
  | Decimal.D1 d => String "1" (string_of_uint d)
  | Decimal.D2 d => String "2" (string_of_uint d)
  | Decimal.D3 d => String "3" (string_of_uint d)
  | Decimal.D4 d => String "4" (string_of_uint d)
  | Decimal.D5 d => String "5" (string_of_uint d)
  | Decimal.D6 d => String "6" (string_of_uint d)
  | Decimal.D7 d => String "7" (string_of_uint d)
  | Decimal.D8 d => String "8" (string_of_uint d)
  | Decimal.D9 d => String "9" (string_of_uint d)
  end.

(** Python's [str(n)] for an [int]. *)
Definition str_int (n : Z) : string :=
  match Z.to_int n with
  | Decimal.Pos d => string_of_uint d
  | Decimal.Neg d => "-" ++ string_of_uint d
  end.

Definition hex_digit (n : Z) : ascii :=
  if (n <? 10)%Z then ascii_of_nat (48 + Z.to_nat n)
  else ascii_of_nat (87 + Z.to_nat n).

(** ** [json.dumps] with its default arguments

    Separators [", "] and [": "], [ensure_ascii=True]: every character
    outside the printable ASCII range is written as [\uXXXX]. *)

(** The double quote and the backslash characters. *)
Definition dq : ascii := ascii_of_nat 34.
Definition bs : ascii := ascii_of_nat 92.

Definition escape_char (c : ascii) : string :=
  let n := Z.of_nat (nat_of_ascii c) in
  if (n =? 34)%Z then String bs (String dq EmptyString)
  else if (n =? 92)%Z then String bs (String bs EmptyString)
  else if (n =? 10)%Z then "\n"
  else if (n =? 13)%Z then "\r"
  else if (n =? 9)%Z then "\t"
  else if (n =? 8)%Z then "\b"
  else if (n =? 12)%Z then "\f"
  else if ((n <? 32) || (126 <? n))%Z then
    String bs (String "u" (String (hex_digit (n / 4096))
      (String (hex_digit ((n / 256) mod 16))
      (String (hex_digit ((n / 16) mod 16))
      (String (hex_digit (n mod 16)) EmptyString)))))
  else String c EmptyString.

Fixpoint escape_string (s : string) : string :=
  match s with
  | EmptyString => EmptyString
  | String c s' => escape_char c ++ escape_string s'
  end.

Definition encode_str (s : string) : string :=
  String dq (escape_string s ++ String dq EmptyString).

Fixpoint join (sep : string) (l : list string) : string :=
  match l with
  | [] => EmptyString
  | [x] => x
  | x :: l' => x ++ sep ++ join sep l'
  end.

Fixpoint dumps (j : json) : string :=
  match j with
  | JNull => "null"
  | JBool true => "true"
  | JBool false => "false"
  | JNum n => str_int n
  | JStr s => encode_str s
  | JArr l => "[" ++ join ", " (map dumps l) ++ "]"
  | JObj l =>
      "{" ++ join ", " (map (fun '(k, v) => encode_str k ++ ": " ++ dumps v) l)
      ++ "}"
  end.

(** ** [json.loads]

    A recursive-descent reading of CPython's [json.decoder] on the
    subset of JSON the handler receives: objects, arrays, strings with
    their escapes, [true], [false], [null] and integers.  Errors carry the
    same text as [str(JSONDecodeError)], ["<msg>: line L column C (char P)"].
    Outside this model: fractions and exponents in numbers, [\u] escapes
    above [0xFF], and the non-standard [NaN]/[Infinity] literals, which
    are reported as errors here. *)

Inductive presult (A : Type) : Type :=
| POk (a : A)
| PErr (msg : string) (pos : nat).
Arguments POk {A} a.
Arguments PErr {A} msg pos.

Definition is_ws (c : ascii) : bool :=
  let n := nat_of_ascii c in
  Nat.eqb n 32 || Nat.eqb n 9 || Nat.eqb n 10 || Nat.eqb n 13.

Definition is_digit (c : ascii) : bool :=
  let n := nat_of_ascii c in Nat.leb 48 n && Nat.leb n 57.

Definition digit_val (c : ascii) : Z := Z.of_nat (nat_of_ascii c - 48).

Definition hex_val (c : ascii) : option Z :=
  let n := nat_of_ascii c in
  if Nat.leb 48 n && Nat.leb n 57 then Some (Z.of_nat (n - 48))
  else if Nat.leb 97 n && Nat.leb n 102 then Some (Z.of_nat (n - 87))
  else if Nat.leb 65 n && Nat.leb n 70 then Some (Z.of_nat (n - 55))
  else None.

Fixpoint skip_ws (p : nat) (s : list ascii) : nat * list ascii :=
  match s with
  | c :: s' => if is_ws c then skip_ws (S p) s' else (p, s)
  | [] => (p, [])
  end.

Fixpoint scan_digits (acc : Z) (p : nat) (s : list ascii) : Z * nat * list ascii :=
  match s with
  | c :: s' => if is_digit c then scan_digits (acc * 10 + digit_val c)%Z (S p) s'
               else (acc, p, s)
  | [] => (acc, p, [])
  end.

(** The integer part of [NUMBER_RE]: an optional minus sign, then [0]
    or a nonzero digit followed by digits; the scan
    starts at [start], on the sign or the first digit. *)
Definition scan_number (start : nat) (s : list ascii)
  : presult (json * nat * list ascii) :=
  let '(neg, p, s1) :=
    match s with
    | c :: s' => if Ascii.eqb c "-"%char then (true, S start, s') else (false, start, s)
    | [] => (false, start, s)
    end in
  let sign (n : Z) := if neg then (- n)%Z else n in
  let finish (n : Z) (q : nat) (r : list ascii) :=
    match r with
    | c :: _ =>
        if Ascii.eqb c "."%char || Ascii.eqb c "e"%char || Ascii.eqb c "E"%char
        then PErr "Unsupported number literal" start
        else POk (JNum (sign n), q, r)
    | [] => POk (JNum (sign n), q, r)
    end in
  match s1 with
  | c :: s2 =>
      if Ascii.eqb c "0"%char then finish 0%Z (S p) s2
      else if is_digit c then
        let '(n, q, r) := scan_digits (digit_val c) (S p) s2 in finish n q r
      else PErr "Expecting value" start
  | [] => PErr "Expecting value" start
  end.

(** The body of a string literal, after its opening quote at [start]. *)
Fixpoint scan_string (start : nat) (acc : list ascii) (p : nat) (s : list ascii)
  : presult (string * nat * list ascii) :=
  match s with
  | [] => PErr "Unterminated string starting at" start
  | c :: s' =>
      if Ascii.eqb c dq then POk (string_of_list_ascii (rev acc), S p, s')
      else if Ascii.eqb c bs then
        match s' with
        | [] => PErr "Unterminated string starting at" start
        | e :: s'' =>
            let simple (r : ascii) := scan_string start (r :: acc) (S (S p)) s'' in
            if Ascii.eqb e dq then simple dq
            else if Ascii.eqb e bs then simple bs
            else if Ascii.eqb e "/"%char then simple "/"%char
            else if Ascii.eqb e "b"%char then simple (ascii_of_nat 8)
            else if Ascii.eqb e "f"%char then simple (ascii_of_nat 12)
            else if Ascii.eqb e "n"%char then simple (ascii_of_nat 10)
            else if Ascii.eqb e "r"%char then simple (ascii_of_nat 13)
            else if Ascii.eqb e "t"%char then simple (ascii_of_nat 9)
            else if Ascii.eqb e "u"%char then
              match s'' with
              | h1 :: h2 :: h3 :: h4 :: rest =>
                  match hex_val h1, hex_val h2, hex_val h3, hex_val h4 with
                  | Some a, Some b, Some c', Some d =>
                      let v := (((a * 16 + b) * 16 + c') * 16 + d)%Z in
                      if (v <? 256)%Z
                      then scan_string start (ascii_of_nat (Z.to_nat v) :: acc) (6 + p) rest
                      else PErr "Unsupported \uXXXX escape" p
                  | _, _, _, _ => PErr "Invalid \uXXXX escape" p
                  end
              | _ => PErr "Invalid \uXXXX escape" p
              end
            else PErr "Invalid \escape" p
        end
      else if Nat.ltb (nat_of_ascii c) 32 then PErr "Invalid control character at" p
      else scan_string start (c :: acc) (S p) s'
  end.

Fixpoint strip_prefix (lit : list ascii) (s : list ascii) : option (list ascii) :=
  match lit, s with
  | [], _ => Some s
  | l :: lit', c :: s' => if Ascii.eqb l c then strip_prefix lit' s' else None
  | _ :: _, [] => None
  end.

Fixpoint scan_value (fuel : nat) (p : nat) (s : list ascii) {struct fuel}
  : presult (json * nat * list ascii) :=
  match fuel with
  | O => PErr "Maximum nesting depth exceeded" p
  | S f =>
    match s with
    | [] => PErr "Expecting value" p
    | c :: s' =>
      if Ascii.eqb c "{"%char then
        let '(p1, s1) := skip_ws (S p) s' in
        match s1 with
        | c1 :: s2 => if Ascii.eqb c1 "}"%char then POk (JObj [], S p1, s2)
                      else scan_members f [] p1 s1
        | [] => scan_members f [] p1 s1
        end
      else if Ascii.eqb c "["%char then
        let '(p1, s1) := skip_ws (S p) s' in
        match s1 with
        | c1 :: s2 => if Ascii.eqb c1 "]"%char then POk (JArr [], S p1, s2)
                      else scan_elements f [] p1 s1
        | [] => scan_elements f [] p1 s1
        end
      else if Ascii.eqb c dq then
        match scan_string p [] (S p) s' with
        | POk (str, p1, s1) => POk (JStr str, p1, s1)
        | PErr m q => PErr m q
        end
      else match strip_prefix (list_ascii_of_string "null") s with
      | Some r => POk (JNull, 4 + p, r)
      | None =>
      match strip_prefix (list_ascii_of_string "true") s with
      | Some r => POk (JBool true, 4 + p, r)
      | None =>
      match strip_prefix (list_ascii_of_string "false") s with
      | Some r => POk (JBool false, 5 + p, r)
      | None => scan_number p s
      end end end
    end
  end
(** Members of an object, from the position of a property name. *)
with scan_members (fuel : nat) (acc : list (string * json)) (p : nat)
  (s : list ascii) {struct fuel} : presult (json * nat * list ascii) :=
  match fuel with
  | O => PErr "Maximum nesting depth exceeded" p
  | S f =>
    match s with
    | c :: s' =>
      if Ascii.eqb c dq then
        match scan_string p [] (S p) s' with
        | PErr m q => PErr m q
        | POk (k, p1, s1) =>
          let '(p2, s2) := skip_ws p1 s1 in
          match s2 with
          | c2 :: s3 =>
            if Ascii.eqb c2 ":"%char then
              let '(p3, s4) := skip_ws (S p2) s3 in
              match scan_value f p3 s4 with
              | PErr m q => PErr m q
              | POk (v, p4, s5) =>
                let '(p5, s6) := skip_ws p4 s5 in
                let acc' := (k, v) :: acc in
                match s6 with
                | c6 :: s7 =>
                  if Ascii.eqb c6 "}"%char then POk (JObj (rev acc'), S p5, s7)
                  else if Ascii.eqb c6 ","%char then
                    let '(p6, s8) := skip_ws (S p5) s7 in
                    scan_members f acc' p6 s8
                  else PErr "Expecting ',' delimiter" p5
                | [] => PErr "Expecting ',' delimiter" p5
                end
              end
            else PErr "Expecting ':' delimiter" p2
          | [] => PErr "Expecting ':' delimiter" p2
          end
        end
      else PErr "Expecting property name enclosed in double quotes" p
    | [] => PErr "Expecting property name enclosed in double quotes" p
    end
  end
(** Elements of an array, from the position of an element. *)
with scan_elements (fuel : nat) (acc : list json) (p : nat)
  (s : list ascii) {struct fuel} : presult (json * nat * list ascii) :=
  match fuel with
  | O => PErr "Maximum nesting depth exceeded" p
  | S f =>
    match scan_value f p s with
    | PErr m q => PErr m q
    | POk (v, p1, s1) =>
      let '(p2, s2) := skip_ws p1 s1 in
      let acc' := v :: acc in
      match s2 with
      | c2 :: s3 =>
        if Ascii.eqb c2 "]"%char then POk (JArr (rev acc'), S p2, s3)
        else if Ascii.eqb c2 ","%char then
          let '(p3, s4) := skip_ws (S p2) s3 in
          scan_elements f acc' p3 s4
        else PErr "Expecting ',' delimiter" p2
      | [] => PErr "Expecting ',' delimiter" p2
      end
    end
  end.

(** Line and column of a character index, as [JSONDecodeError] counts
    them. *)
Fixpoint line_col (line col : nat) (pos : nat) (s : list ascii) : nat * nat :=
  match pos, s with
  | S pos', c :: s' =>
      if Nat.eqb (nat_of_ascii c) 10 then line_col (S line) 1 pos' s'
      else line_col line (S col) pos' s'
  | _, _ => (line, col)
  end.

Definition decode_error (doc : list ascii) (msg : string) (pos : nat) : string :=
  let '(l, c) := line_col 1 1 pos doc in
  msg ++ ": line " ++ str_int (Z.of_nat l) ++ " column " ++ str_int (Z.of_nat c)
  ++ " (char " ++ str_int (Z.of_nat pos) ++ ")".

(** [json.loads(s)] for a [str] argument. *)
Definition json_loads (s : string) : result json :=
  let doc := list_ascii_of_string s in
  let '(p0, s0) := skip_ws 0 doc in
  match scan_value (2 * length doc + 2) p0 s0 with
  | PErr m p => Err (decode_error doc m p)
  | POk (v, p1, s1) =>
      let '(p2, s2) := skip_ws p1 s1 in
      match s2 with
      | [] => Ok v
      | _ :: _ => Err (decode_error doc "Extra data" p2)
      end
  end.

Example json_loads_empty :
  json_loads EmptyString = Err "Expecting value: line 1 column 1 (char 0)".
Proof. reflexivity. Qed.

Example json_loads_braces : json_loads "{}" = Ok (JObj []).
Proof. reflexivity. Qed.

(** ** Dict access on parsed bodies *)

(** [type(x).__name__], for the error text of a failed attribute lookup. *)
Definition py_type_name (j : json) : string :=
  match j with
  | JNull => "NoneType"
  | JBool _ => "bool"
  | JNum _ => "int"
  | JStr _ => "str"
  | JArr _ => "list"
  | JObj _ => "dict"
  end.

Definition quoted (s : string) : string := String dq (s ++ String dq EmptyString).

Definition no_attribute (tyname attr : string) : string :=
  "'" ++ tyname ++ "' object has no attribute '" ++ attr ++ "'".

(** A key of the dict built by [json.loads]: the last pair with that key
    gives the value. *)
Definition obj_lookup (l : list (string * json)) (k : string) : option json :=
  match find (fun '(k', _) => String.eqb k k') (rev l) with
  | Some (_, v) => Some v
  | None => None
  end.

(** [data.get(k, default)]; raises [AttributeError] unless [data] is a
    dict. *)
Definition py_get (data : json) (k : string) (default : json) : result json :=
  match data with
  | JObj l => match obj_lookup l k with Some v => Ok v | None => Ok default end
  | _ => Err (no_attribute (py_type_name data) "get")
  end.

(** ** The storage behind psycopg2

    The [events] table is reached through psycopg2.  What this code does
    not decide is left to an instance of [Storage]: the type of the
    [event_date] column with its order and [isoformat()], and how the
    driver adapts the bound parameters and the server converts them to
    column values (for [title, event_date, event_type, description,
    notification_enabled] and for [id] in [WHERE id = %s]).  A
    conversion may fail with the error text of the driver or server. *)

Record colvals (T : Type) : Type := mk_colvals {
  cv_title : option string;
  cv_event_date : option T;
  cv_event_type : option string;
  cv_description : option string;
  cv_notification_enabled : option bool
}.
Arguments mk_colvals {T}.
Arguments cv_title {T}.
Arguments cv_event_date {T}.
Arguments cv_event_type {T}.
Arguments cv_description {T}.
Arguments cv_notification_enabled {T}.

Class Storage : Type := {
  ts : Type;
  ts_leb : ts -> ts -> bool;
  ts_leb_total : forall a b, ts_leb a b = true \/ ts_leb b a = true;
  ts_leb_trans : forall a b c,
    ts_leb a b = true -> ts_leb b c = true -> ts_leb a c = true;
  isoformat : ts -> string;
  adapt_row : json -> json -> json -> json -> json -> result (colvals ts);
  adapt_key : json -> result (option Z);
  (** [id = NULL] holds for no row *)
  adapt_key_null : adapt_key JNull = Ok None
}.

(** ** HTTP responses *)

Record response : Type := mk_response {
  statusCode : Z;
  headers : list (string * string);
  body : string;
  isBase64Encoded : bool
}.

Definition json_headers : list (string * string) :=
  [("Content-Type", "application/json"); ("Access-Control-Allow-Origin", "*")].

Definition json_response (code : Z) (payload : json) : response :=
  mk_response code json_headers (dumps payload) false.

Definition error_obj (m : string) : json := JObj [("error", JStr m)].

Definition cors_headers : list (string * string) :=
  [("Access-Control-Allow-Origin", "*");
   ("Access-Control-Allow-Methods", "GET, POST, PUT, DELETE, OPTIONS");
   ("Access-Control-Allow-Headers", "Content-Type");
   ("Access-Control-Max-Age", "86400")].

Definition options_response : response :=
  mk_response 200 cors_headers EmptyString false.

(** ** Requests

    A key of the [event] dict is missing, holds [None], or holds a
    value. *)
Inductive field (A : Type) : Type :=
| Missing
| Null
| Given (a : A).
Arguments Missing {A}.
Arguments Null {A}.
Arguments Given {A} a.

Record request : Type := mk_request {
  httpMethod : field string;
  req_body : field string;
  queryStringParameters : field (list (string * string))
}.

Section Handler.
Context `{St : Storage}.

(** ** The [events] table *)

Record event_row : Type := mk_row {
  ev_id : Z;
  ev_title : string;
  ev_event_date : ts;
  ev_event_type : string;
  ev_description : option string;
  ev_notification_enabled : option bool;
  ev_created_at : Z;
  ev_updated_at : option Z
}.

(** The database as one invocation sees it: the error text of
    [psycopg2.connect] when connecting fails, the rows in storage order,
    the next value of the [id] sequence and [CURRENT_TIMESTAMP]. *)
Record db : Type := mk_db {
  db_connect_error : option string;
  db_rows : list event_row;
  db_next_id : Z;
  db_clock : Z
}.

(** A state and exception monad: a computation gives its value or the
    text of the exception it raised, with the database as it is at that
    point.  The code commits only after a statement succeeds, so a
    failing statement stores no row; what survives a failure is the
    sequence value it drew, as sequences are not rolled back. *)
Definition M (A : Type) : Type := db -> result A * db.

Definition ret {A} (a : A) : M A := fun d => (Ok a, d).

Definition bind {A B} (c : M A) (k : A -> M B) : M B :=
  fun d => match c d with
           | (Ok a, d') => k a d'
           | (Err m, d') => (Err m, d')
           end.

Definition lift {A} (r : result A) : M A := fun d => (r, d).

Notation "x <- c ;; k" := (bind c (fun x => k))
  (at level 61, c at next level, right associativity).

(** Modelled from the spec: the [NOT NULL] constraints of the [events]
    table, whose schema is not part of the handler's source; the data
    model states that every stored event has a non-null title, date and
    type. *)
Definition not_null_violation (col : string) : string :=
  "null value in column " ++ quoted col ++ " of relation " ++ quoted "events"
  ++ " violates not-null constraint".

Definition check_not_null (cv : colvals ts) : result (string * ts * string) :=
  match cv_title cv, cv_event_date cv, cv_event_type cv with
  | None, _, _ => Err (not_null_violation "title")
  | _, None, _ => Err (not_null_violation "event_date")
  | _, _, None => Err (not_null_violation "event_type")
  | Some t, Some dt, Some ty => Ok (t, dt, ty)
  end.

Definition get_db_connection : M unit :=
  fun d => match db_connect_error d with
           | Some m => (Err m, d)
           | None => (Ok tt, d)
           end.

(** [ORDER BY event_date ASC]: a stable insertion sort on the date. *)
Fixpoint insert_by_date (r : event_row) (l : list event_row) : list event_row :=
  match l with
  | [] => [r]
  | r' :: l' => if ts_leb (ev_event_date r) (ev_event_date r') then r :: l
                else r' :: insert_by_date r l'
  end.

Fixpoint sort_by_date (l : list event_row) : list event_row :=
  match l with
  | [] => []
  | r :: l' => insert_by_date r (sort_by_date l')
  end.

(** [SELECT ... FROM events ORDER BY event_date ASC] *)
Definition select_events : M (list event_row) :=
  fun d => (Ok (sort_by_date (db_rows d)), d).

(** [INSERT INTO events (...) VALUES (...) RETURNING ...]: the
    parameters are converted when the statement is analysed; the row is
    then formed, which draws the next value of the [id] sequence, and
    checked against the [NOT NULL] constraints, so a row failing them
    has consumed its id. *)
Definition insert_event (title date type description notif : json) : M event_row :=
  fun d =>
    match adapt_row title date type description notif with
    | Err m => (Err m, d)
    | Ok cv =>
      match check_not_null cv with
      | Err m => (Err m, mk_db (db_connect_error d) (db_rows d)
                            (db_next_id d + 1) (db_clock d))
      | Ok (t, dt, ty) =>
        let r := mk_row (db_next_id d) t dt ty (cv_description cv)
                   (cv_notification_enabled cv) (db_clock d) None in
        (Ok r, mk_db (db_connect_error d) (db_rows d ++ [r])
                 (db_next_id d + 1) (db_clock d))
      end
    end.

Definition key_matches (k : option Z) (r : event_row) : bool :=
  match k with Some k => Z.eqb (ev_id r) k | None => false end.

Definition set_fields (t : string) (dt : ts) (ty : string) (cv : colvals ts)
  (now : Z) (r : event_row) : event_row :=
  mk_row (ev_id r) t dt ty (cv_description cv) (cv_notification_enabled cv)
    (ev_created_at r) (Some now).

(** [UPDATE events SET ... WHERE id = %s RETURNING ...]; [fetchone()]
    gives the first returned row. *)
Definition update_returning (title date type description notif key : json)
  : M (option event_row) :=
  fun d =>
    match adapt_row title date type description notif with
    | Err m => (Err m, d)
    | Ok cv =>
      match adapt_key key with
      | Err m => (Err m, d)
      | Ok k =>
        match filter (key_matches k) (db_rows d) with
        | [] => (Ok None, d)
        | r :: _ =>
          match check_not_null cv with
          | Err m => (Err m, d)
          | Ok (t, dt, ty) =>
            let upd r := if key_matches k r then set_fields t dt ty cv (db_clock d) r
                         else r in
            (Ok (Some (upd r)),
             mk_db (db_connect_error d) (map upd (db_rows d))
               (db_next_id d) (db_clock d))
          end
        end
      end
    end.

(** [DELETE FROM events WHERE id = %s RETURNING id] *)
Definition delete_returning (key : json) : M (option Z) :=
  fun d =>
    match adapt_key key with
    | Err m => (Err m, d)
    | Ok k =>
      match filter (key_matches k) (db_rows d) with
      | [] => (Ok None, d)
      | r :: _ =>
        (Ok (Some (ev_id r)),
         mk_db (db_connect_error d)
           (filter (fun r => negb (key_matches k r)) (db_rows d))
           (db_next_id d) (db_clock d))
      end
    end.

(** ** The handler *)

Definition opt_json {A} (f : A -> json) (o : option A) : json :=
  match o with Some a => f a | None => JNull end.

(** The Event wire object built from a fetched row. *)
Definition wire_of (r : event_row) : json :=
  JObj [("id", JStr (str_int (ev_id r)));
        ("title", JStr (ev_title r));
        ("date", JStr (isoformat (ev_event_date r)));
        ("type", JStr (ev_event_type r));
        ("description", opt_json JStr (ev_description r));
        ("notificationEnabled", opt_json JBool (ev_notification_enabled r))].

Definition get_events : M response :=
  _ <- get_db_connection ;;
  events <- select_events ;;
  ret (json_response 200 (JObj [("events", JArr (map wire_of events))])).

Definition create_event (data : json) : M response :=
  _ <- get_db_connection ;;
  title <- lift (py_get data "title" JNull) ;;
  date <- lift (py_get data "date" JNull) ;;
  type <- lift (py_get data "type" JNull) ;;
  description <- lift (py_get data "description" JNull) ;;
  notif <- lift (py_get data "notificationEnabled" (JBool true)) ;;
  new_event <- insert_event title date type description notif ;;
  ret (json_response 201 (wire_of new_event)).

Definition update_event (data : json) : M response :=
  _ <- get_db_connection ;;
  title <- lift (py_get data "title" JNull) ;;
  date <- lift (py_get data "date" JNull) ;;
  type <- lift (py_get data "type" JNull) ;;
  description <- lift (py_get data "description" JNull) ;;
  notif <- lift (py_get data "notificationEnabled" (JBool true)) ;;
  key <- lift (py_get data "id" JNull) ;;
  updated_event <- update_returning title date type description notif key ;;
  match updated_event with
  | None => ret (json_response 404 (error_obj "Event not found"))
  | Some r => ret (json_response 200 (wire_of r))
  end.

Definition delete_event (event_id : option string) : M response :=
  match event_id with
  | None | Some EmptyString =>
      ret (json_response 400 (error_obj "Event ID is required"))
  | Some id =>
      _ <- get_db_connection ;;
      deleted <- delete_returning (JStr id) ;;
      match deleted with
      | None => ret (json_response 404 (error_obj "Event not found"))
      | Some _ => ret (json_response 200 (JObj [("success", JBool true)]))
      end
  end.

(** [event.get('body', '{}')], the argument of [json.loads]. *)
Definition request_body (ev : request) : result string :=
  match req_body ev with
  | Missing => Ok "{}"
  | Null => Err "the JSON object must be str, bytes or bytearray, not NoneType"
  | Given s => Ok s
  end.

(** [event.get('queryStringParameters', {}).get('id')] *)
Definition query_id (ev : request) : result (option string) :=
  match queryStringParameters ev with
  | Missing => Ok None
  | Null => Err (no_attribute "NoneType" "get")
  | Given params =>
      Ok (match find (fun '(k, _) => String.eqb k "id") params with
          | Some (_, v) => Some v
          | None => None
          end)
  end.

(** [event.get('httpMethod', 'GET')]; [None] stands for a [None]
    value, equal to no method name. *)
Definition request_method (ev : request) : option string :=
  match httpMethod ev with
  | Missing => Some "GET"
  | Null => None
  | Given m => Some m
  end.

Definition is_method (m : option string) (name : string) : bool :=
  match m with Some s => String.eqb s name | None => false end.

(** The body of the [try] block. *)
Definition dispatch (method : option string) (ev : request) : M response :=
  if is_method method "GET" then get_events
  else if is_method method "POST" then
    s <- lift (request_body ev) ;;
    body_data <- lift (json_loads s) ;;
    create_event body_data
  else if is_method method "PUT" then
    s <- lift (request_body ev) ;;
    body_data <- lift (json_loads s) ;;
    update_event body_data
  else if is_method method "DELETE" then
    event_id <- lift (query_id ev) ;;
    delete_event event_id
  else ret (json_response 405 (error_obj "Method not allowed")).

(** [handler(event, context)]: the response and the database after the
    invocation. *)
Definition handler (ev : request) (d : db) : response * db :=
  let method := request_method ev in
  if is_method method "OPTIONS" then (options_response, d)
  else match dispatch method ev d with
       | (Ok resp, d') => (resp, d')
       | (Err m, d') => (json_response 500 (error_obj m), d')
       end.

End Handler.

(** ** A PostgreSQL-like storage

    An instance of [Storage] for concrete runs: [event_date] is a
    [timestamp without time zone], kept as the number [YYYYMMDDhhmmss];
    [id] is an integer key; parameters are adapted as psycopg2 does
    (a [dict] cannot be adapted) and converted as the server converts
    literals to the column types. *)
Module Pg.

Definition digit (n : Z) : ascii := ascii_of_nat (48 + Z.to_nat (n mod 10)).

Definition pad2 (n : Z) : string :=
  String (digit (n / 10)) (String (digit n) EmptyString).

Definition pad4 (n : Z) : string :=
  String (digit (n / 1000)) (String (digit (n / 100))
    (String (digit (n / 10)) (String (digit n) EmptyString))).

(** [datetime.isoformat()] *)
Definition isoformat (t : Z) : string :=
  pad4 (t / 10000000000) ++ "-" ++ pad2 (t / 100000000) ++ "-"
  ++ pad2 (t / 1000000) ++ "T" ++ pad2 (t / 10000) ++ ":" ++ pad2 (t / 100)
  ++ ":" ++ pad2 t.

Fixpoint digits_value (acc : Z) (s : list ascii) : option Z :=
  match s with
  | [] => Some acc
  | c :: s' => if is_digit c then digits_value (acc * 10 + digit_val c)%Z s'
               else None
  end.

Definition field_value (s : list ascii) : option Z :=
  match s with [] => None | _ => digits_value 0 s end.

(** [YYYY-MM-DD] or [YYYY-MM-DD hh:mm:ss] ([T] also separates). *)
Definition parse_timestamp (s : string) : option Z :=
  match list_ascii_of_string s with
  | [y1; y2; y3; y4; "-"; m1; m2; "-"; d1; d2] =>
      match field_value [y1; y2; y3; y4], field_value [m1; m2], field_value [d1; d2] with
      | Some y, Some m, Some d => Some (((y * 100 + m) * 100 + d) * 1000000)%Z
      | _, _, _ => None
      end
  | [y1; y2; y3; y4; "-"; m1; m2; "-"; d1; d2; sep; h1; h2; ":"; i1; i2; ":"; s1; s2] =>
      if Ascii.eqb sep "T"%char || Ascii.eqb sep " "%char then
      match field_value [y1; y2; y3; y4], field_value [m1; m2], field_value [d1; d2],
            field_value [h1; h2], field_value [i1; i2], field_value [s1; s2] with
      | Some y, Some m, Some d, Some h, Some i, Some sec =>
          Some (((((y * 100 + m) * 100 + d) * 100 + h) * 100 + i) * 100 + sec)%Z
      | _, _, _, _, _, _ => None
      end
      else None
  | _ => None
  end%char.

Definition invalid_input (ty s : string) : string :=
  "invalid input syntax for type " ++ ty ++ ": " ++ quoted s.

Definition type_mismatch (col ty j : string) : string :=
  "column " ++ quoted col ++ " is of type " ++ ty ++ " but expression is of type " ++ j.

(** Adaptation of one parameter by psycopg2, then conversion by the
    server; [None] is SQL [NULL]. *)
Definition adapt {A} (col ty : string) (from_str : string -> option A)
  (from_num : Z -> option A) (from_bool : bool -> option A) (j : json)
  : result (option A) :=
  match j with
  | JNull => Ok None
  | JStr s => match from_str s with Some a => Ok (Some a) | None => Err (invalid_input ty s) end
  | JNum n => match from_num n with Some a => Ok (Some a) | None => Err (type_mismatch col ty "integer") end
  | JBool b => match from_bool b with Some a => Ok (Some a) | None => Err (type_mismatch col ty "boolean") end
  | JArr _ => Err (type_mismatch col ty "text[]")
  | JObj _ => Err "can't adapt type 'dict'"
  end.

Definition adapt_text (col : string) : json -> result (option string) :=
  adapt col "text" Some (fun n => Some (str_int n))
    (fun b => Some (if b then "true" else "false")).

Definition adapt_timestamp : json -> result (option Z) :=
  adapt "event_date" "timestamp without time zone" parse_timestamp
    (fun _ => None) (fun _ => None).

(** [isspace] of C. *)
Definition is_space (c : ascii) : bool :=
  let n := nat_of_ascii c in Nat.eqb n 32 || (Nat.leb 9 n && Nat.leb n 13).

Fixpoint drop_space (l : list ascii) : list ascii :=
  match l with
  | c :: l' => if is_space c then drop_space l' else l
  | [] => []
  end.

Definition trim (l : list ascii) : list ascii := rev (drop_space (rev (drop_space l))).

Definition lower (c : ascii) : ascii :=
  let n := nat_of_ascii c in
  if Nat.leb 65 n && Nat.leb n 90 then ascii_of_nat (n + 32) else c.

(** [pg_strncasecmp(value, word, length value) == 0]: [value] is a
    prefix of [word], ignoring case. *)
Fixpoint prefix_ci (l w : list ascii) : bool :=
  match l, w with
  | [], _ => true
  | c :: l', d :: w' => Ascii.eqb (lower c) d && prefix_ci l' w'
  | _ :: _, [] => false
  end.

(** [boolin]: surrounding white space is dropped, then
    [parse_bool_with_len] reads a prefix of [true], [false], [yes] or
    [no], [on], [of]/[off], [1] or [0], in any case. *)
Definition parse_bool (s : string) : option bool :=
  let v := trim (list_ascii_of_string s) in
  let word w := list_ascii_of_string w in
  match v with
  | [] => None
  | c :: _ =>
    match lower c with
    | "t"%char => if prefix_ci v (word "true") then Some true else None
    | "f"%char => if prefix_ci v (word "false") then Some false else None
    | "y"%char => if prefix_ci v (word "yes") then Some true else None
    | "n"%char => if prefix_ci v (word "no") then Some false else None
    | "o"%char => if Nat.leb 2 (length v) && prefix_ci v (word "on") then Some true
             else if Nat.leb 2 (length v) && prefix_ci v (word "off") then Some false
             else None
    | "1"%char => if Nat.eqb (length v) 1 then Some true else None
    | "0"%char => if Nat.eqb (length v) 1 then Some false else None
    | _ => None
    end
  end.

Definition adapt_bool : json -> result (option bool) :=
  adapt "notification_enabled" "boolean" parse_bool (fun _ => None) Some.

Definition parse_int (s : string) : option Z :=
  match list_ascii_of_string s with
  | "-"%char :: r => option_map Z.opp (field_value r)
  | r => field_value r
  end.

Definition adapt_key (j : json) : result (option Z) :=
  adapt "id" "integer" parse_int Some (fun _ => None) j.

Definition adapt_row (title date type description notif : json)
  : result (colvals Z) :=
  match adapt_text "title" title, adapt_timestamp date, adapt_text "event_type" type,
        adapt_text "description" description, adapt_bool notif with
  | Ok t, Ok dt, Ok ty, Ok de, Ok n => Ok (mk_colvals t dt ty de n)
  | Err m, _, _, _, _ | _, Err m, _, _, _ | _, _, Err m, _, _
  | _, _, _, Err m, _ | _, _, _, _, Err m => Err m
  end.

Lemma leb_total (a b : Z) : Z.leb a b = true \/ Z.leb b a = true.
Proof. rewrite !Z.leb_le; lia. Qed.

Lemma leb_trans (a b c : Z) :
  Z.leb a b = true -> Z.leb b c = true -> Z.leb a c = true.
Proof. rewrite !Z.leb_le; lia. Qed.

Lemma adapt_key_null : adapt_key JNull = Ok None.
Proof. reflexivity. Qed.

End Pg.

#[export] Instance pg_storage : Storage := {|
  ts := Z;
  ts_leb := Z.leb;
  ts_leb_total := Pg.leb_total;
  ts_leb_trans := Pg.leb_trans;
  isoformat := Pg.isoformat;
  adapt_row := Pg.adapt_row;
  adapt_key := Pg.adapt_key;
  adapt_key_null := Pg.adapt_key_null
|}.

(** An empty, reachable table. *)
Definition empty_db : db := mk_db None [] 1 0.

Definition post (body : string) : request := mk_request (Given "POST") (Given body) Missing.
Definition get_req : request := mk_request (Given "GET") Missing Missing.

Definition launch_body : string :=
  "{" ++ quoted "title" ++ ":" ++ quoted "Launch" ++ "," ++ quoted "date" ++ ":"
  ++ quoted "2024-06-01T00:00:00" ++ "," ++ quoted "type" ++ ":" ++ quoted "milestone"
  ++ "," ++ quoted "description" ++ ":" ++ quoted "Product launch" ++ ","
  ++ quoted "notificationEnabled" ++ ":false}".

(** * Properties of the handler *)

(** Case analysis on the innermost [match] of a hypothesis. *)
Ltac split_inner_match :=
  match goal with
  | H : context [match ?x with _ => _ end] |- _ =>
      lazymatch x with
      | context [match _ with _ => _ end] => fail
      | _ => destruct x eqn:?
      end
  end.

Section Claims.
Context `{St : Storage}.

Definition date_le (a b : event_row) : Prop :=
  ts_leb (ev_event_date a) (ev_event_date b) = true.

(** The value [data.get(k, default)] takes on a dict. *)
Definition field_or (fields : list (string * json)) (k : string) (default : json) : json :=
  match obj_lookup fields k with Some v => v | None => default end.

(** The payload of a [GET] response. *)
Definition events_payload (evs : list event_row) : json :=
  JObj [("events", JArr (map wire_of evs))].

Lemma insert_by_date_perm (r : event_row) (l : list event_row) :
  Permutation (insert_by_date r l) (r :: l).
Proof.
  induction l as [|r' l IH]; simpl; [reflexivity|].
  destruct (ts_leb _ _); [reflexivity|].
  rewrite IH. apply perm_swap.
Qed.

Lemma sort_by_date_perm (l : list event_row) : Permutation (sort_by_date l) l.
Proof.
  induction l as [|r l IH]; simpl; [reflexivity|].
  rewrite insert_by_date_perm. now apply perm_skip.
Qed.

Lemma ts_leb_false (a b : ts) : ts_leb a b = false -> ts_leb b a = true.
Proof. intros H. destruct (ts_leb_total a b) as [H'|H']; congruence. Qed.

Lemma insert_by_date_sorted (r : event_row) (l : list event_row) :
  StronglySorted date_le l -> StronglySorted date_le (insert_by_date r l).
Proof.
  induction l as [|r' l IH]; intros Hs; simpl.
  - repeat constructor.
  - inversion Hs as [|? ? Hl Hall]; subst.
    destruct (ts_leb (ev_event_date r) (ev_event_date r')) eqn:Hle.
    + constructor; [exact Hs|].
      constructor; [exact Hle|].
      eapply Forall_impl; [|exact Hall].
      intros x Hx. eapply ts_leb_trans; eauto.
    + constructor; [now apply IH|].
      apply Forall_forall. intros x Hx.
      apply (Permutation_in _ (insert_by_date_perm r l)) in Hx.
      destruct Hx as [<-|Hx].
      * now apply ts_leb_false.
      * now apply (proj1 (Forall_forall _ _) Hall).
Qed.

Lemma sort_by_date_sorted (l : list event_row) : StronglySorted date_le (sort_by_date l).
Proof.
  induction l as [|r l IH]; simpl; [constructor|].
  now apply insert_by_date_sorted.
Qed.

(** C1: a GET request, with the database reachable, answers 200 with
    one wire object per stored row (a permutation of the table, nothing
    filtered), in ascending order of [event_date], and changes
    nothing. *)
Theorem get_lists_all_events_sorted (ev : request) (d : db)
  (Hget : httpMethod ev = Given "GET") (Hconn : db_connect_error d = None) :
  exists evs,
    handler ev d = (json_response 200 (events_payload evs), d)
    /\ Permutation evs (db_rows d)
    /\ StronglySorted date_le evs.
Proof.
  exists (sort_by_date (db_rows d)).
  split; [|split; [apply sort_by_date_perm | apply sort_by_date_sorted]].
  unfold handler, request_method. rewrite Hget. cbn.
  unfold get_events, bind, get_db_connection. rewrite Hconn. reflexivity.
Qed.

(** The [try]/[except Exception] of [handler]. *)
Definition run_try (c : M response) (d : db) : response * db :=
  match c d with
  | (Ok resp, d') => (resp, d')
  | (Err m, d') => (json_response 500 (error_obj m), d')
  end.

Lemma handler_not_options (ev : request) (d : db) :
  request_method ev <> Some "OPTIONS" ->
  handler ev d = run_try (dispatch (request_method ev) ev) d.
Proof.
  intros H. unfold handler.
  destruct (is_method (request_method ev) "OPTIONS") eqn:E; [|reflexivity].
  exfalso. apply H. destruct (request_method ev) as [m|]; [|discriminate].
  simpl in E. apply String.eqb_eq in E. now subst.
Qed.

Lemma py_get_obj (fields : list (string * json)) (k : string) (default : json) :
  py_get (JObj fields) k default = Ok (field_or fields k default).
Proof. unfold py_get, field_or. now destruct (obj_lookup fields k). Qed.

Lemma dispatch_get (ev : request) : dispatch (Some "GET") ev = get_events.
Proof. reflexivity. Qed.

Lemma dispatch_post (ev : request) :
  dispatch (Some "POST") ev =
  bind (lift (request_body ev)) (fun s => bind (lift (json_loads s)) create_event).
Proof. reflexivity. Qed.

Lemma dispatch_put (ev : request) :
  dispatch (Some "PUT") ev =
  bind (lift (request_body ev)) (fun s => bind (lift (json_loads s)) update_event).
Proof. reflexivity. Qed.

Lemma dispatch_delete (ev : request) :
  dispatch (Some "DELETE") ev = bind (lift (query_id ev)) delete_event.
Proof. reflexivity. Qed.

(** The five values [create_event] and [update_event] bind for the
    columns, taken from the body. *)
Definition bound_row (fields : list (string * json)) : result (colvals ts) :=
  adapt_row (field_or fields "title" JNull) (field_or fields "date" JNull)
    (field_or fields "type" JNull) (field_or fields "description" JNull)
    (field_or fields "notificationEnabled" (JBool true)).

(** C2 (amended): a POST whose body parses to a JSON object, with the
    database reachable, inserts exactly one row built from the body's
    [title], [date], [type], [description] and [notificationEnabled]
    (true when absent), with the next sequence value as [id], and answers
    201 with that row's wire object, provided the storage accepts those
    values and [title], [date] and [type] are not null.  When the storage
    rejects a value, the answer is 500 with its error text and nothing
    changes; when one of the three is null, the answer is 500 with the
    [NOT NULL] violation, no row is stored, and the id sequence has
    advanced. *)
Theorem post_creates_event (ev : request) (d : db) (s : string)
  (fields : list (string * json))
  (Hm : httpMethod ev = Given "POST") (Hb : request_body ev = Ok s)
  (Hj : json_loads s = Ok (JObj fields)) (Hc : db_connect_error d = None) :
  (forall cv t dt ty,
     bound_row fields = Ok cv -> check_not_null cv = Ok (t, dt, ty) ->
     let r := mk_row (db_next_id d) t dt ty (cv_description cv)
                (cv_notification_enabled cv) (db_clock d) None in
     handler ev d =
       (json_response 201 (wire_of r),
        mk_db None (db_rows d ++ [r]) (db_next_id d + 1) (db_clock d)))
  /\ (forall m, bound_row fields = Err m ->
        handler ev d = (json_response 500 (error_obj m), d))
  /\ (forall cv m, bound_row fields = Ok cv -> check_not_null cv = Err m ->
        handler ev d =
          (json_response 500 (error_obj m),
           mk_db None (db_rows d) (db_next_id d + 1) (db_clock d))).
Proof.
  assert (Hrun : handler ev d =
    run_try (fun d0 =>
      match insert_event (field_or fields "title" JNull) (field_or fields "date" JNull)
              (field_or fields "type" JNull) (field_or fields "description" JNull)
              (field_or fields "notificationEnabled" (JBool true)) d0 with
      | (Ok r, d1) => (Ok (json_response 201 (wire_of r)), d1)
      | (Err m, d1) => (Err m, d1)
      end) d).
  { rewrite handler_not_options by (unfold request_method; rewrite Hm; discriminate).
    unfold request_method; rewrite Hm. rewrite dispatch_post.
    unfold run_try, bind, lift. rewrite Hb, Hj.
    unfold create_event, bind, get_db_connection, lift, ret. rewrite Hc.
    rewrite !py_get_obj. reflexivity. }
  unfold bound_row. split; [|split].
  - intros cv t dt ty Ha Hn. rewrite Hrun. unfold run_try, insert_event.
    rewrite Ha, Hn. cbn -[wire_of]. now rewrite Hc.
  - intros m Ha. rewrite Hrun. unfold run_try, insert_event. now rewrite Ha.
  - intros cv m Ha Hn. rewrite Hrun. unfold run_try, insert_event.
    rewrite Ha, Hn. cbn. now rewrite Hc.
Qed.

Lemma put_run (ev : request) (d : db) (s : string) (fields : list (string * json))
  (Hm : httpMethod ev = Given "PUT") (Hb : request_body ev = Ok s)
  (Hj : json_loads s = Ok (JObj fields)) (Hc : db_connect_error d = None) :
  handler ev d =
  run_try (fun d0 =>
    match update_returning (field_or fields "title" JNull) (field_or fields "date" JNull)
            (field_or fields "type" JNull) (field_or fields "description" JNull)
            (field_or fields "notificationEnabled" (JBool true))
            (field_or fields "id" JNull) d0 with
    | (Ok None, d1) => (Ok (json_response 404 (error_obj "Event not found")), d1)
    | (Ok (Some r), d1) => (Ok (json_response 200 (wire_of r)), d1)
    | (Err m, d1) => (Err m, d1)
    end) d.
Proof.
  rewrite handler_not_options by (unfold request_method; rewrite Hm; discriminate).
  unfold request_method; rewrite Hm. rewrite dispatch_put.
  unfold run_try, bind, lift. rewrite Hb, Hj.
  unfold update_event, bind, get_db_connection, lift, ret. rewrite Hc.
  rewrite !py_get_obj. unfold run_try.
  destruct (update_returning _ _ _ _ _ _ d) as [[[r|]|m] d1]; reflexivity.
Qed.



(** C10 (amended): a PUT whose body is a JSON object without an [id]
    field binds [NULL] for the key, so that, with the database reachable
    and the other values accepted by the storage, the answer is 404
    [{"error": "Event not found"}] (never a 400) and no stored row
    changes; when the storage rejects one of the other values, the
    answer is 500 with its error text. *)
Theorem put_without_id_not_found (ev : request) (d : db) (s : string)
  (fields : list (string * json))
  (Hm : httpMethod ev = Given "PUT") (Hb : request_body ev = Ok s)
  (Hj : json_loads s = Ok (JObj fields)) (Hc : db_connect_error d = None)
  (Hnoid : obj_lookup fields "id" = None) :
  (forall cv, bound_row fields = Ok cv ->
     handler ev d = (json_response 404 (error_obj "Event not found"), d))
  /\ (forall m, bound_row fields = Err m ->
        handler ev d = (json_response 500 (error_obj m), d)).
Proof.
  rewrite (put_run ev d s fields Hm Hb Hj Hc).
  assert (Hid : field_or fields "id" JNull = JNull) by (unfold field_or; now rewrite Hnoid).
  unfold bound_row. unfold run_try, update_returning. rewrite Hid, adapt_key_null.
  split.
  - intros cv Hrow. rewrite Hrow.
    assert (Hf : filter (key_matches None) (db_rows d) = []).
    { induction (db_rows d) as [|r l IH]; simpl; auto. }
    now rewrite Hf.
  - intros m Hrow. now rewrite Hrow.
Qed.

Lemma find_id_absent (ps : list (string * string)) :
  ~ In "id" (map fst ps) ->
  find (fun '(k, _) => String.eqb k "id") ps = None.
Proof.
  induction ps as [|[k v] ps IH]; simpl; intros Hn; [reflexivity|].
  destruct (String.eqb_spec k "id") as [->|Hk]; [exfalso; now apply Hn; left|].
  apply IH. intros Hin; apply Hn; now right.
Qed.

(** C4: a DELETE whose query parameters hold no [id] answers 400
    [{"error": "Event ID is required"}] and leaves the database as it
    was, reachable or not. *)
Theorem delete_without_id_rejected (ev : request) (d : db)
  (Hm : httpMethod ev = Given "DELETE")
  (Hq : queryStringParameters ev = Missing
        \/ exists ps, queryStringParameters ev = Given ps /\ ~ In "id" (map fst ps)) :
  handler ev d = (json_response 400 (error_obj "Event ID is required"), d).
Proof.
  assert (Hid : query_id ev = Ok None).
  { unfold query_id. destruct Hq as [->|[ps [-> Hn]]]; [reflexivity|].
    now rewrite (find_id_absent ps Hn). }
  rewrite handler_not_options by (unfold request_method; rewrite Hm; discriminate).
  unfold request_method; rewrite Hm. rewrite dispatch_delete.
  unfold run_try, bind, lift. now rewrite Hid.
Qed.

Lemma filter_nil_key (k : option Z) (l : list event_row) (r : event_row) :
  key_matches k r = true ->
  forall r', In r' (filter (fun x => negb (key_matches k x)) l) -> ev_id r' <> ev_id r.
Proof.
  intros Hr r' Hin Heq. apply filter_In in Hin. destruct Hin as [_ Hn].
  unfold key_matches in *. destruct k as [k|]; [|discriminate].
  apply Z.eqb_eq in Hr. rewrite Heq, Hr, Z.eqb_refl in Hn. discriminate.
Qed.

(** C5 (amended): a DELETE with a non-empty [id], the database
    reachable: when the storage accepts the id as a key and no stored
    row has it, the answer is 404 [{"error": "Event not found"}] and the
    table is unchanged; when a stored row has it, the answer is 200
    [{"success": true}], exactly the rows with that key are removed, and
    a following GET lists no event with that id; an id the storage
    cannot convert to a key gives 500 with its error text. *)
Theorem delete_removes_or_not_found (ev : request) (d : db) (id : string)
  (Hm : httpMethod ev = Given "DELETE") (Hq : query_id ev = Ok (Some id))
  (Hne : id <> EmptyString) (Hc : db_connect_error d = None) :
  (forall k, adapt_key (JStr id) = Ok k ->
     (filter (key_matches k) (db_rows d) = [] ->
        handler ev d = (json_response 404 (error_obj "Event not found"), d))
     /\ (forall r, In r (db_rows d) -> key_matches k r = true ->
          let d' := mk_db None (filter (fun x => negb (key_matches k x)) (db_rows d))
                      (db_next_id d) (db_clock d) in
          handler ev d = (json_response 200 (JObj [("success", JBool true)]), d')
          /\ forall gev, httpMethod gev = Given "GET" ->
               exists evs, handler gev d' = (json_response 200 (events_payload evs), d')
                 /\ Forall (fun r' => ev_id r' <> ev_id r) evs))
  /\ (forall m, adapt_key (JStr id) = Err m ->
        handler ev d = (json_response 500 (error_obj m), d)).
Proof.
  assert (Hrun : handler ev d = run_try (delete_event (Some id)) d).
  { rewrite handler_not_options by (unfold request_method; rewrite Hm; discriminate).
    unfold request_method; rewrite Hm. rewrite dispatch_delete.
    unfold run_try, bind, lift. now rewrite Hq. }
  assert (Hdel : delete_event (Some id) =
    bind get_db_connection (fun _ => bind (delete_returning (JStr id)) (fun deleted =>
      match deleted with
      | None => ret (json_response 404 (error_obj "Event not found"))
      | Some _ => ret (json_response 200 (JObj [("success", JBool true)]))
      end))).
  { unfold delete_event. destruct id; [contradiction|reflexivity]. }
  rewrite Hrun, Hdel. unfold run_try, bind, get_db_connection, delete_returning.
  rewrite Hc. split.
  - intros k Hk. rewrite Hk. split.
    + intros Hnone. now rewrite Hnone.
    + intros r Hin Hr.
      destruct (filter (key_matches k) (db_rows d)) as [|r0 rest] eqn:Hf.
      { exfalso. assert (Hin' : In r (filter (key_matches k) (db_rows d)))
          by (apply filter_In; auto). now rewrite Hf in Hin'. }
      split; [now rewrite Hc|].
      intros gev Hg. eexists (sort_by_date _).
      split.
      * rewrite handler_not_options by (unfold request_method; rewrite Hg; discriminate).
        unfold request_method; rewrite Hg. rewrite dispatch_get.
        reflexivity.
      * apply Forall_forall. intros r' Hr'.
        apply (Permutation_in _ (sort_by_date_perm _)) in Hr'.
        exact (filter_nil_key k (db_rows d) r Hr r' Hr').
  - intros m Hk. now rewrite Hk.
Qed.

Lemma dispatch_same_inputs (m : option string) (ev ev' : request) :
  request_body ev = request_body ev' -> query_id ev = query_id ev' ->
  dispatch m ev = dispatch m ev'.
Proof. intros Hb Hq. unfold dispatch. now rewrite Hb, Hq. Qed.

Definition empty_body_error : string := "Expecting value: line 1 column 1 (char 0)".

(** C6 (amended): only a missing [body] key defaults to [{}]: such a
    request is handled exactly as the same request with body ["{}"].  A
    POST or PUT whose body is present but empty goes to [json.loads],
    which fails, and the answer is 500 with the decoder's error text; a
    [None] body fails the same way with a [TypeError]. *)
Theorem body_defaults_only_when_missing (ev : request) (d : db) :
  (req_body ev = Missing ->
     handler ev d = handler (mk_request (httpMethod ev) (Given "{}") (queryStringParameters ev)) d)
  /\ (request_method ev = Some "POST" \/ request_method ev = Some "PUT" ->
      (req_body ev = Given EmptyString ->
         handler ev d = (json_response 500 (error_obj empty_body_error), d))
      /\ (req_body ev = Null ->
         handler ev d =
           (json_response 500 (error_obj
              "the JSON object must be str, bytes or bytearray, not NoneType"), d))).
Proof.
  split.
  - intros Hb. unfold handler. cbn [request_method httpMethod].
    rewrite (dispatch_same_inputs _ ev
               (mk_request (httpMethod ev) (Given "{}") (queryStringParameters ev))).
    + reflexivity.
    + unfold request_body. now rewrite Hb.
    + reflexivity.
  - intros Hm. split; intros Hb;
      (rewrite handler_not_options by (destruct Hm as [-> | ->]; discriminate));
      destruct Hm as [-> | ->];
      [rewrite dispatch_post | rewrite dispatch_put | rewrite dispatch_post | rewrite dispatch_put];
      unfold run_try, bind, lift, request_body; rewrite Hb; reflexivity.
Qed.

Lemma is_method_true (m : option string) (name : string) :
  is_method m name = true -> m = Some name.
Proof.
  destruct m as [s|]; simpl; [|discriminate].
  intros E. apply String.eqb_eq in E. now subst.
Qed.

(** The database after an exception: as it was, except after a POST
    whose row failed its [NOT NULL] check, which drew a sequence value. *)
Lemma dispatch_error_state (m : option string) (ev : request) (d : db) (e : string) (d' : db) :
  dispatch m ev d = (Err e, d') ->
  d' = d \/ (m = Some "POST" /\ db_connect_error d = None
             /\ d' = mk_db (db_connect_error d) (db_rows d) (db_next_id d + 1) (db_clock d)).
Proof.
  intros H.
  unfold dispatch, get_events, create_event, update_event, delete_event, bind, lift, ret,
    get_db_connection, select_events, insert_event, update_returning, delete_returning in H.
  repeat (split_inner_match; try discriminate H).
  all: injection H as _ <-.
  all: try (left; reflexivity).
  right. split; [apply is_method_true; assumption|]. split; [reflexivity|].
  match goal with E : db_connect_error d = None |- _ => now rewrite E end.
Qed.

(** C7: for GET, POST, PUT and DELETE, whatever exception the body of
    the [try] raises becomes a 500 answer [{"error": m}] carrying the
    exception's text [m] unchanged, with no stored row changed; in
    particular a body that does not parse and a connection that cannot
    be opened both end there, with the database as it was. *)
Theorem exceptions_become_500 (ev : request) (d : db)
  (Hm : In (request_method ev) [Some "GET"; Some "POST"; Some "PUT"; Some "DELETE"]) :
  (forall m d', dispatch (request_method ev) ev d = (Err m, d') ->
     handler ev d = (json_response 500 (error_obj m), d') /\ db_rows d' = db_rows d)
  /\ (forall s m,
        (request_method ev = Some "POST" \/ request_method ev = Some "PUT") ->
        request_body ev = Ok s -> json_loads s = Err m ->
        handler ev d = (json_response 500 (error_obj m), d))
  /\ (forall m, db_connect_error d = Some m ->
        (request_method ev = Some "GET"
         \/ ((request_method ev = Some "POST" \/ request_method ev = Some "PUT")
             /\ exists s j, request_body ev = Ok s /\ json_loads s = Ok j)
         \/ (request_method ev = Some "DELETE"
             /\ exists id, query_id ev = Ok (Some id) /\ id <> EmptyString)) ->
        handler ev d = (json_response 500 (error_obj m), d)).
Proof.
  assert (Hno : request_method ev <> Some "OPTIONS").
  { intros Heq. rewrite Heq in Hm. simpl in Hm.
    repeat (destruct Hm as [Hm|Hm]; [discriminate|]). exact Hm. }
  assert (Hcatch : forall m, dispatch (request_method ev) ev d = (Err m, d) ->
            handler ev d = (json_response 500 (error_obj m), d)).
  { intros m Herr. rewrite (handler_not_options ev d Hno). unfold run_try.
    now rewrite Herr. }
  split; [|split].
  - intros m d' Herr. split.
    + rewrite (handler_not_options ev d Hno). unfold run_try. now rewrite Herr.
    + destruct (dispatch_error_state _ ev d m d' Herr) as [->|(_ & _ & ->)]; reflexivity.
  - intros s m Hpp Hb Hj. apply Hcatch.
    destruct Hpp as [-> | ->]; [rewrite dispatch_post | rewrite dispatch_put];
      unfold bind, lift; now rewrite Hb, Hj.
  - intros m Hc Hcase. apply Hcatch.
    destruct Hcase as [-> | [[[-> | ->] [s [j [Hb Hj]]]] | [-> [id [Hq Hne]]]]].
    + rewrite dispatch_get. unfold get_events, bind, get_db_connection.
      now rewrite Hc.
    + rewrite dispatch_post. unfold bind, lift. rewrite Hb, Hj.
      unfold create_event, bind, get_db_connection. now rewrite Hc.
    + rewrite dispatch_put. unfold bind, lift. rewrite Hb, Hj.
      unfold update_event, bind, get_db_connection. now rewrite Hc.
    + rewrite dispatch_delete. unfold bind, lift. rewrite Hq.
      unfold delete_event. destruct id as [|c id']; [contradiction|].
      unfold bind, get_db_connection. now rewrite Hc.
Qed.

(** C8: an OPTIONS request answers 200 with an empty body and the CORS
    headers, whatever the database, which it neither reads nor
    changes. *)
Theorem options_preflight (ev : request) (d : db)
  (Hm : httpMethod ev = Given "OPTIONS") :
  handler ev d =
    (mk_response 200
       [("Access-Control-Allow-Origin", "*");
        ("Access-Control-Allow-Methods", "GET, POST, PUT, DELETE, OPTIONS");
        ("Access-Control-Allow-Headers", "Content-Type");
        ("Access-Control-Max-Age", "86400")]
       EmptyString false, d).
Proof. unfold handler, request_method. rewrite Hm. reflexivity. Qed.

(** C9: a request without an [httpMethod] key is handled exactly as a
    GET (not as 405), so with the database reachable it answers 200. *)
Theorem missing_method_is_get (ev : request) (d : db)
  (Hm : httpMethod ev = Missing) :
  handler ev d = handler (mk_request (Given "GET") (req_body ev) (queryStringParameters ev)) d
  /\ (db_connect_error d = None -> statusCode (fst (handler ev d)) = 200%Z).
Proof.
  split.
  - unfold handler, request_method. rewrite Hm. reflexivity.
  - intros Hc. unfold handler, request_method. rewrite Hm.
    cbn [is_method]. rewrite dispatch_get.
    unfold get_events, bind, get_db_connection. rewrite Hc. reflexivity.
Qed.

End Claims.


(** * Concrete runs on the PostgreSQL-like storage *)

Definition member (k v : string) : string := quoted k ++ ":" ++ v.

Definition obj_text (members : list string) : string := "{" ++ join "," members ++ "}".

Definition put (body : string) : request := mk_request (Given "PUT") (Given body) Missing.

Definition delete_req (id : option string) : request :=
  mk_request (Given "DELETE") Missing
    (Given (match id with Some i => [("id", i)] | None => [] end)).

Definition launch_fields : list (string * json) :=
  [("title", JStr "Launch"); ("date", JStr "2024-06-01T00:00:00");
   ("type", JStr "milestone"); ("description", JStr "Product launch");
   ("notificationEnabled", JBool false)].

Definition launch_row : @event_row pg_storage :=
  mk_row 1 "Launch" 20240601000000%Z "milestone" (Some "Product launch")
    (Some false) 0 None.

Definition launch_db : @db pg_storage := mk_db None [launch_row] 2 0.

(** Two events inserted dated 2024-01-01, then 2023-01-01. *)
Definition two_events_db : @db pg_storage :=
  snd (handler (post (obj_text [member "title" (quoted "b"); member "date" (quoted "2023-01-01");
                                member "type" (quoted "t")]))
         (snd (handler (post (obj_text [member "title" (quoted "a");
                                        member "date" (quoted "2024-01-01");
                                        member "type" (quoted "t")])) empty_db))).

Example two_events_listed_oldest_first :
  map ev_title (sort_by_date (db_rows two_events_db)) = ["b"; "a"].
Proof. reflexivity. Qed.

Definition put_missing_body : string :=
  obj_text [member "id" "7"; member "title" (quoted "X");
            member "date" (quoted "2024-01-01"); member "type" (quoted "t")].




Lemma get_lists_all_events_sorted_witness :
  exists evs,
    handler get_req two_events_db = (json_response 200 (events_payload evs), two_events_db)
    /\ Permutation evs (db_rows two_events_db)
    /\ StronglySorted date_le evs.
Proof. apply get_lists_all_events_sorted; reflexivity. Defined.

Lemma post_creates_event_witness :
  handler (post launch_body) empty_db = (json_response 201 (wire_of launch_row), launch_db)
  /\ handler (post "{}") empty_db
     = (json_response 500 (error_obj (not_null_violation "title")), mk_db None [] 2 0).
Proof.
  split.
  - apply (proj1 (post_creates_event (post launch_body) empty_db launch_body launch_fields
                    eq_refl eq_refl ltac:(reflexivity) eq_refl)
             (mk_colvals (Some "Launch") (Some 20240601000000%Z) (Some "milestone")
                (Some "Product launch") (Some false))
             "Launch" 20240601000000%Z "milestone");
      reflexivity.
  - apply (proj2 (proj2 (post_creates_event (post "{}") empty_db "{}" []
                           eq_refl eq_refl ltac:(reflexivity) eq_refl))
             (mk_colvals None None None None (Some true)));
      reflexivity.
Defined.

(** C2 fails: this POST body is a JSON object, but [garbage] is no
    timestamp the server can read, so the statement raises, the answer
    is 500 and no row is inserted. *)
Lemma post_bad_date_not_created :
  statusCode (fst (handler (post (obj_text [member "title" (quoted "Launch");
                                            member "date" (quoted "garbage");
                                            member "type" (quoted "milestone")])) empty_db))
  = 500%Z
  /\ snd (handler (post (obj_text [member "title" (quoted "Launch");
                                   member "date" (quoted "garbage");
                                   member "type" (quoted "milestone")])) empty_db) = empty_db.
Proof. split; reflexivity. Defined.



Lemma delete_without_id_rejected_witness :
  handler (delete_req None) launch_db
  = (json_response 400 (error_obj "Event ID is required"), launch_db).
Proof.
  apply delete_without_id_rejected; [reflexivity|].
  right. exists []. split; [reflexivity|]. simpl. tauto.
Defined.

Lemma delete_removes_or_not_found_witness :
  handler (delete_req (Some "1")) launch_db
  = (json_response 200 (JObj [("success", JBool true)]), mk_db None [] 2 0)
  /\ exists evs, handler get_req (mk_db None [] 2 0)
                 = (json_response 200 (events_payload evs), mk_db None [] 2 0)
       /\ Forall (fun r' => ev_id r' <> 1%Z) evs.
Proof.
  destruct (proj2 (proj1 (delete_removes_or_not_found (delete_req (Some "1")) launch_db "1"
                   eq_refl eq_refl ltac:(discriminate) eq_refl) (Some 1%Z) eq_refl)
              launch_row ltac:(left; reflexivity) eq_refl) as [H1 H2].
  split; [exact H1|]. exact (H2 get_req eq_refl).
Defined.

(** C5 fails: no stored event has the id [abc], yet the answer is 500,
    not 404: the storage cannot read [abc] as an integer key. *)
Lemma delete_malformed_id_error :
  handler (delete_req (Some "abc")) empty_db
  = (json_response 500 (error_obj (Pg.invalid_input "integer" "abc")), empty_db).
Proof. reflexivity. Defined.

Lemma body_defaults_only_when_missing_witness :
  handler (mk_request (Given "PUT") Missing Missing) empty_db
  = handler (put "{}") empty_db
  /\ handler (put EmptyString) empty_db
     = (json_response 500 (error_obj empty_body_error), empty_db).
Proof.
  split.
  - apply (proj1 (body_defaults_only_when_missing (mk_request (Given "PUT") Missing Missing)
                    empty_db)); reflexivity.
  - apply (proj1 (proj2 (body_defaults_only_when_missing (put EmptyString) empty_db)
                    ltac:(right; reflexivity))); reflexivity.
Defined.

(** C6 fails: an empty body is not read as [{}]: a PUT with an empty
    body answers 500 where the same PUT with body [{}] answers 404. *)
Lemma put_empty_body_not_braces :
  fst (handler (put EmptyString) empty_db) = json_response 500 (error_obj empty_body_error)
  /\ fst (handler (put "{}") empty_db) = json_response 404 (error_obj "Event not found")
  /\ handler (put EmptyString) empty_db <> handler (put "{}") empty_db.
Proof.
  split; [reflexivity|]. split; [reflexivity|].
  intros H. apply (f_equal (fun p => statusCode (fst p))) in H.
  vm_compute in H. discriminate H.
Defined.

Definition unreachable_db : @db pg_storage :=
  mk_db (Some "could not connect to server: Connection refused") [] 1 0.

Lemma exceptions_become_500_witness :
  handler get_req unreachable_db
  = (json_response 500 (error_obj "could not connect to server: Connection refused"),
     unreachable_db)
  /\ handler (post EmptyString) empty_db
     = (json_response 500 (error_obj empty_body_error), empty_db).
Proof.
  split.
  - apply (proj2 (proj2 (exceptions_become_500 get_req unreachable_db
                           ltac:(left; reflexivity))));
      [reflexivity | left; reflexivity].
  - apply (proj1 (proj2 (exceptions_become_500 (post EmptyString) empty_db
                           ltac:(right; left; reflexivity))) EmptyString);
      [left; reflexivity | reflexivity | reflexivity].
Defined.

Lemma options_preflight_witness :
  fst (handler (mk_request (Given "OPTIONS") Missing Missing) unreachable_db)
  = mk_response 200 cors_headers EmptyString false.
Proof.
  rewrite (options_preflight (mk_request (Given "OPTIONS") Missing Missing) unreachable_db
             eq_refl).
  reflexivity.
Defined.

Lemma missing_method_is_get_witness :
  handler (mk_request Missing Missing Missing) launch_db = handler get_req launch_db
  /\ statusCode (fst (handler (mk_request Missing Missing Missing) launch_db)) = 200%Z.
Proof.
  destruct (missing_method_is_get (mk_request Missing Missing Missing) launch_db eq_refl)
    as [H1 H2].
  split; [exact H1 | exact (H2 eq_refl)].
Defined.

Lemma put_without_id_not_found_witness :
  handler (put "{}") launch_db = (json_response 404 (error_obj "Event not found"), launch_db).
Proof.
  apply (proj1 (put_without_id_not_found (put "{}") launch_db "{}" [] eq_refl eq_refl
                  ltac:(reflexivity) eq_refl eq_refl)
           (mk_colvals None None None None (Some true)));
    reflexivity.
Defined.

(** C10 fails: this PUT body has no [id], yet the answer is 500, not
    404, since the server cannot read [garbage] as a timestamp. *)
Lemma put_without_id_bad_date :
  statusCode (fst (handler (put (obj_text [member "date" (quoted "garbage")])) launch_db))
  = 500%Z
  /\ snd (handler (put (obj_text [member "date" (quoted "garbage")])) launch_db) = launch_db.
Proof. split; reflexivity. Defined.

(** * Further properties of the handler *)



Section Effects.
Context `{St : Storage}.

(** What one invocation of the [try] body can do when it returns:
    leave the database as it was, append one row carrying the next
    sequence value (POST, answering 201), rewrite in place the rows of one
    id keeping their id and [created_at] (PUT, answering 200), or remove
    rows of one id (DELETE, answering 200). *)
Inductive outcome (m : option string) (d : db) : response -> db -> Prop :=
| out_same (resp : response) :
    In (statusCode resp) [200; 400; 404; 405]%Z ->
    headers resp = json_headers -> isBase64Encoded resp = false ->
    outcome m d resp d
| out_insert (r : event_row) :
    m = Some "POST" -> ev_id r = db_next_id d -> db_connect_error d = None ->
    outcome m d (json_response 201 (wire_of r))
      (mk_db (db_connect_error d) (db_rows d ++ [r]) (db_next_id d + 1) (db_clock d))
| out_update (f : event_row -> event_row) (k : Z) (r : event_row) :
    m = Some "PUT" -> db_connect_error d = None ->
    (forall x, f x = x \/
       (ev_id x = k /\ ev_id (f x) = ev_id x /\ ev_created_at (f x) = ev_created_at x
        /\ ev_updated_at (f x) = Some (db_clock d))) ->
    outcome m d (json_response 200 (wire_of r))
      (mk_db (db_connect_error d) (map f (db_rows d)) (db_next_id d) (db_clock d))
| out_delete (p : event_row -> bool) (k : Z) :
    m = Some "DELETE" -> db_connect_error d = None -> (forall x, p x = false -> ev_id x = k) ->
    outcome m d (json_response 200 (JObj [("success", JBool true)]))
      (mk_db (db_connect_error d) (filter p (db_rows d)) (db_next_id d) (db_clock d)).


Lemma updated_row_shape (k : option Z) (t : string) (dt : ts) (ty : string)
  (cv : colvals ts) (now : Z) (x : event_row) :
  let f := fun r => if key_matches k r then set_fields t dt ty cv now r else r in
  f x = x \/
  (ev_id x = match k with Some k' => k' | None => 0%Z end
   /\ ev_id (f x) = ev_id x /\ ev_created_at (f x) = ev_created_at x
   /\ ev_updated_at (f x) = Some now).
Proof.
  intros f. unfold f, key_matches.
  destruct k as [k|]; [|now left].
  destruct (Z.eqb_spec (ev_id x) k) as [E|E]; [right|now left].
  now repeat split.
Qed.

Lemma deleted_row_key (k : option Z) (x : event_row) :
  negb (key_matches k x) = false -> ev_id x = match k with Some k' => k' | None => 0%Z end.
Proof.
  unfold key_matches. destruct k as [k|]; simpl; [|discriminate].
  destruct (Z.eqb_spec (ev_id x) k); [auto|discriminate].
Qed.

Lemma dispatch_outcome (m : option string) (ev : request) (d d' : db) (resp : response) :
  dispatch m ev d = (Ok resp, d') -> outcome m d resp d'.
Proof.
  intros H.
  unfold dispatch, get_events, create_event, update_event, delete_event, bind, lift, ret,
    get_db_connection, select_events, insert_event, update_returning, delete_returning in H.
  repeat (split_inner_match; try discriminate H).
  all: try (injection H as <- <-).
  all: try (apply out_same; [simpl; tauto | reflexivity | reflexivity]).
  all: repeat match goal with
         | E : is_method _ _ = true |- _ => apply is_method_true in E; try subst
         end.
  - apply out_insert; [first [reflexivity | assumption] | reflexivity | assumption].
  - match goal with
    | |- context [map (fun r => if key_matches ?k r then _ else _) _] =>
        apply (out_update _ _ _ (match k with Some k' => k' | None => 0%Z end));
        [first [reflexivity | assumption] | assumption | intros x; apply updated_row_shape]
    end.
  - match goal with
    | |- context [map (fun r => if key_matches ?k r then _ else _) _] =>
        apply (out_update _ _ _ (match k with Some k' => k' | None => 0%Z end));
        [first [reflexivity | assumption] | assumption | intros x; apply updated_row_shape]
    end.
  - match goal with
    | |- context [filter (fun r => negb (key_matches ?k r)) _] =>
        apply (out_delete _ _ _ (match k with Some k' => k' | None => 0%Z end));
        [first [reflexivity | assumption] | assumption | intros x Hx; apply deleted_row_key; exact Hx]
    end.
Qed.
Lemma handler_cases (ev : request) (d : db) :
  (request_method ev = Some "OPTIONS" /\ handler ev d = (options_response, d))
  \/ (request_method ev <> Some "OPTIONS"
      /\ ((exists resp d', handler ev d = (resp, d') /\ outcome (request_method ev) d resp d')
          \/ (exists m d', handler ev d = (json_response 500 (error_obj m), d')
                 /\ (d' = d
                     \/ (request_method ev = Some "POST" /\ db_connect_error d = None
                         /\ d' = mk_db (db_connect_error d) (db_rows d) (db_next_id d + 1)
                                   (db_clock d)))))).
Proof.
  destruct (is_method (request_method ev) "OPTIONS") eqn:E.
  - left. split; [now apply is_method_true|]. unfold handler. now rewrite E.
  - right. assert (Hno : request_method ev <> Some "OPTIONS").
    { intros H. rewrite H in E. discriminate E. }
    split; [exact Hno|]. rewrite (handler_not_options ev d Hno). unfold run_try.
    destruct (dispatch (request_method ev) ev d) as [[resp|m] d'] eqn:D.
    + left. exists resp, d'. split; [reflexivity|]. now apply (dispatch_outcome _ ev).
    + right. exists m, d'. split; [reflexivity|]. exact (dispatch_error_state _ ev d m d' D).
Qed.






(** X2: the only status codes the handler answers with are 200, 201,
    400, 404, 405 and 500, and 201 only to a POST. *)
Theorem handler_status_codes (ev : request) (d : db) :
  In (statusCode (fst (handler ev d))) [200; 201; 400; 404; 405; 500]%Z
  /\ (statusCode (fst (handler ev d)) = 201%Z -> request_method ev = Some "POST").
Proof.
  destruct (handler_cases ev d) as [[_ ->]|[_ [[resp [d' [-> Ho]]]|[m [d'' [-> [->|(Hpost & Hcon & ->)]]]]]]]; simpl.
  - split; [tauto | discriminate].
  - inversion Ho as [? Hs _ _ | r Hm _ _ | f k r Hm _ _ | p k Hm _ _]; subst; simpl.
    + split; [simpl in Hs; tauto|]. intros E; rewrite E in Hs; simpl in Hs.
      repeat (destruct Hs as [Hs|Hs]; [discriminate|]); contradiction.
    + split; [tauto | intros _; exact Hm].
    + split; [tauto | discriminate].
    + split; [tauto | discriminate].
  - split; [tauto | discriminate].
  - split; [tauto | discriminate].
Qed.

(** X3: every answer except the OPTIONS preflight carries the headers
    [Content-Type: application/json] and [Access-Control-Allow-Origin: *]
    and is not base64-encoded. *)
Theorem handler_json_headers (ev : request) (d : db)
  (Hm : request_method ev <> Some "OPTIONS") :
  headers (fst (handler ev d)) = json_headers /\ isBase64Encoded (fst (handler ev d)) = false.
Proof.
  destruct (handler_cases ev d) as [[E _]|[_ [[resp [d' [-> Ho]]]|[m [d'' [-> [->|(Hpost & Hcon & ->)]]]]]]];
    [contradiction | | split; reflexivity | split; reflexivity].
  simpl. inversion Ho; subst; split; auto.
Qed.


(** X5: a GET never changes the database, whatever its state, reachable
    or not. *)
Theorem get_is_read_only (ev : request) (d : db)
  (Hm : request_method ev = Some "GET") :
  snd (handler ev d) = d.
Proof.
  destruct (handler_cases ev d) as [[E _]|[_ [[resp [d' [-> Ho]]]|[m [d'' [-> [->|(Hpost & Hcon & ->)]]]]]]];
    [rewrite Hm in E; discriminate E | | reflexivity | rewrite Hm in Hpost; discriminate Hpost].
  simpl. inversion Ho; subst; try reflexivity; rewrite Hm in *; discriminate.
Qed.

(** X6: a PUT never creates or removes a row and never moves the id
    sequence: the rows afterwards are the rows before, in the same order,
    each unchanged or, for the rows of one id only, rewritten keeping its
    id and [created_at] and with [updated_at] set to the current
    time. *)
Theorem put_rewrites_in_place (ev : request) (d : db)
  (Hm : request_method ev = Some "PUT") :
  exists f k,
    db_rows (snd (handler ev d)) = map f (db_rows d)
    /\ db_next_id (snd (handler ev d)) = db_next_id d
    /\ forall x, f x = x \/
         (ev_id x = k /\ ev_id (f x) = ev_id x /\ ev_created_at (f x) = ev_created_at x
          /\ ev_updated_at (f x) = Some (db_clock d)).
Proof.
  destruct (handler_cases ev d) as [[E _]|[_ [[resp [d' [-> Ho]]]|[m [d'' [-> [->|(Hpost & Hcon & ->)]]]]]]];
    [rewrite Hm in E; discriminate E | | | rewrite Hm in Hpost; discriminate Hpost].
  - simpl. inversion Ho as [? _ _ _ | r Hp _ _ | f k r _ _ Hf | p k Hp _ _]; subst;
      try (rewrite Hm in Hp; discriminate Hp).
    + exists (fun x => x), 0%Z. split; [symmetry; apply map_id|]. split; [reflexivity|].
      intros x; now left.
    + exists f, k. simpl. auto.
  - exists (fun x => x), 0%Z. simpl. split; [symmetry; apply map_id|]. split; [reflexivity|].
    intros x; now left.
Qed.

(** X7: a DELETE never adds or modifies a row and never moves the id
    sequence: the rows afterwards are the rows before with some rows
    removed, all of one id. *)
Theorem delete_only_removes (ev : request) (d : db)
  (Hm : request_method ev = Some "DELETE") :
  exists p k,
    db_rows (snd (handler ev d)) = filter p (db_rows d)
    /\ db_next_id (snd (handler ev d)) = db_next_id d
    /\ forall x, p x = false -> ev_id x = k.
Proof.
  assert (Hall : db_rows d = filter (fun _ => true) (db_rows d))
    by (induction (db_rows d) as [|x l IH]; simpl; congruence).
  destruct (handler_cases ev d) as [[E _]|[_ [[resp [d' [-> Ho]]]|[m [d'' [-> [->|(Hpost & Hcon & ->)]]]]]]];
    [rewrite Hm in E; discriminate E | | | rewrite Hm in Hpost; discriminate Hpost].
  - simpl. inversion Ho as [? _ _ _ | r Hp _ _ | f k r Hp _ _ | p k _ _ Hp]; subst;
      try (rewrite Hm in Hp; discriminate Hp).
    + exists (fun _ => true), 0%Z. split; [exact Hall|]. split; [reflexivity|discriminate].
    + exists p, k. simpl. auto.
  - exists (fun _ => true), 0%Z. simpl. split; [exact Hall|]. split; [reflexivity|discriminate].
Qed.

(** X8: a request whose method is none of GET, POST, PUT, DELETE and
    OPTIONS (also a [None] method) answers 405
    [{"error": "Method not allowed"}] without touching the database,
    reachable or not. *)
Theorem other_methods_not_allowed (ev : request) (d : db)
  (Hm : ~ In (request_method ev) [Some "GET"; Some "POST"; Some "PUT"; Some "DELETE"; Some "OPTIONS"]) :
  handler ev d = (json_response 405 (error_obj "Method not allowed"), d).
Proof.
  unfold handler, dispatch.
  repeat match goal with
         | |- context [is_method (request_method ev) ?n] =>
             let E := fresh "E" in
             destruct (is_method (request_method ev) n) eqn:E;
             [apply is_method_true in E; exfalso; apply Hm; rewrite E; simpl; tauto|]
         end.
  reflexivity.
Qed.



Lemma delete_run (ev : request) (d : db) (Hm : request_method ev = Some "DELETE") :
  handler ev d = run_try (bind (lift (query_id ev)) delete_event) d.
Proof.
  rewrite handler_not_options by (rewrite Hm; discriminate).
  rewrite Hm. reflexivity.
Qed.

Lemma filter_key_gone (k : option Z) (l : list event_row) :
  filter (key_matches k) (filter (fun x => negb (key_matches k x)) l) = [].
Proof.
  induction l as [|x l IH]; simpl; [reflexivity|].
  destruct (key_matches k x) eqn:E; simpl; [exact IH|]. rewrite E. exact IH.
Qed.

(** X10: deleting is not repeatable: when a DELETE answers 200, the same
    request sent again answers 404 [{"error": "Event not found"}] and
    changes nothing. *)
Theorem delete_twice_not_found (ev : request) (d : db)
  (Hm : request_method ev = Some "DELETE")
  (H200 : statusCode (fst (handler ev d)) = 200%Z) :
  handler ev (snd (handler ev d)) =
    (json_response 404 (error_obj "Event not found"), snd (handler ev d)).
Proof.
  rewrite (delete_run ev d Hm) in *. unfold run_try, bind, lift in *.
  destruct (query_id ev) as [[id|]|m] eqn:Hq; [|discriminate H200|discriminate H200].
  destruct id as [|c id']; [discriminate H200|].
  unfold delete_event, bind, get_db_connection, delete_returning in *.
  destruct (db_connect_error d) eqn:Hc; [discriminate H200|].
  destruct (adapt_key (JStr (String c id'))) as [k|m] eqn:Hk; [|discriminate H200].
  destruct (filter (key_matches k) (db_rows d)) as [|r rest] eqn:Hf; [discriminate H200|].
  simpl. rewrite (delete_run ev _ Hm). unfold run_try, bind, lift. rewrite Hq.
  cbn. unfold bind, get_db_connection, delete_returning. cbn. rewrite Hc, Hk. cbn. rewrite filter_key_gone. reflexivity.
Qed.

(** X11: a DELETE whose [id] query parameter is the empty string answers
    400 [{"error": "Event ID is required"}] and changes nothing, like a
    missing one. *)
Theorem delete_empty_id_rejected (ev : request) (d : db)
  (Hm : httpMethod ev = Given "DELETE") (Hq : query_id ev = Ok (Some EmptyString)) :
  handler ev d = (json_response 400 (error_obj "Event ID is required"), d).
Proof.
  rewrite delete_run by (unfold request_method; now rewrite Hm).
  unfold run_try, bind, lift. now rewrite Hq.
Qed.

(** X12: a DELETE whose [queryStringParameters] is [None] fails on
    [.get('id')]: the answer is 500
    [{"error": "'NoneType' object has no attribute 'get'"}] and nothing
    changes. *)
Theorem delete_null_params_fails (ev : request) (d : db)
  (Hm : httpMethod ev = Given "DELETE") (Hq : queryStringParameters ev = Null) :
  handler ev d =
    (json_response 500 (error_obj "'NoneType' object has no attribute 'get'"), d).
Proof.
  rewrite delete_run by (unfold request_method; now rewrite Hm).
  unfold run_try, bind, lift, query_id. now rewrite Hq.
Qed.






(** X15: nothing is written to a database that cannot be reached: when
    the connection fails, the table and the id sequence stay as they
    were, whatever the request. *)
Theorem unreachable_db_unchanged (ev : request) (d : db) (m : string)
  (Hc : db_connect_error d = Some m) :
  snd (handler ev d) = d.
Proof.
  destruct (handler_cases ev d) as [[_ ->]|[_ [[resp [d' [-> Ho]]]|[m' [d'' [-> [->|(Hpost & Hcon & ->)]]]]]]];
    simpl; try reflexivity; [|congruence].
  inversion Ho; subst; try reflexivity; congruence.
Qed.

End Effects.

(** * Ids on the PostgreSQL-like storage *)











(** ** Runs of the properties above *)


Lemma handler_json_headers_witness :
  headers (fst (handler get_req launch_db)) = json_headers
  /\ isBase64Encoded (fst (handler get_req launch_db)) = false.
Proof. apply handler_json_headers. discriminate. Defined.


Lemma get_is_read_only_witness : snd (handler get_req unreachable_db) = unreachable_db.
Proof. apply get_is_read_only. reflexivity. Defined.

Lemma put_rewrites_in_place_witness :
  exists f k,
    db_rows (snd (handler (put put_missing_body) launch_db)) = map f (db_rows launch_db)
    /\ db_next_id (snd (handler (put put_missing_body) launch_db)) = db_next_id launch_db
    /\ forall x, f x = x \/
         (ev_id x = k /\ ev_id (f x) = ev_id x /\ ev_created_at (f x) = ev_created_at x
          /\ ev_updated_at (f x) = Some (db_clock launch_db)).
Proof. apply put_rewrites_in_place. reflexivity. Defined.

Lemma delete_only_removes_witness :
  exists p k,
    db_rows (snd (handler (delete_req (Some "1")) launch_db)) = filter p (db_rows launch_db)
    /\ db_next_id (snd (handler (delete_req (Some "1")) launch_db)) = db_next_id launch_db
    /\ forall x, p x = false -> ev_id x = k.
Proof. apply delete_only_removes. reflexivity. Defined.

Lemma other_methods_not_allowed_witness :
  handler (mk_request (Given "PATCH") Missing Missing) launch_db
  = (json_response 405 (error_obj "Method not allowed"), launch_db).
Proof.
  apply other_methods_not_allowed. simpl. intros H.
  repeat (destruct H as [H|H]; [discriminate H|]). exact H.
Defined.


Lemma delete_twice_not_found_witness :
  handler (delete_req (Some "1")) (snd (handler (delete_req (Some "1")) launch_db))
  = (json_response 404 (error_obj "Event not found"),
     snd (handler (delete_req (Some "1")) launch_db)).
Proof. apply delete_twice_not_found; reflexivity. Defined.

Lemma delete_empty_id_rejected_witness :
  handler (delete_req (Some EmptyString)) launch_db
  = (json_response 400 (error_obj "Event ID is required"), launch_db).
Proof. apply delete_empty_id_rejected; reflexivity. Defined.

Lemma delete_null_params_fails_witness :
  handler (mk_request (Given "DELETE") Missing Null) launch_db
  = (json_response 500 (error_obj "'NoneType' object has no attribute 'get'"), launch_db).
Proof. apply delete_null_params_fails; reflexivity. Defined.


Lemma unreachable_db_unchanged_witness :
  snd (handler (post launch_body) unreachable_db) = unreachable_db.
Proof.
  apply (unreachable_db_unchanged _ _ "could not connect to server: Connection refused").
  reflexivity.
Defined.

